(** * effect.testing: the manual resolution engine of the effect library

    A shallow embedding of [effect/testing.py] ([StubIntent],
    [resolve_effect], [fail_effect], [resolve_stub], [sync_perform]) and
    the properties of its specification.

    Python objects live in a heap and are passed around by reference, so
    that "the engine does not mutate its argument" and "the engine builds
    a new effect" are statements about heaps.  Callbacks are user code:
    they are kept abstract (a type [Fn] of function objects and its
    interpreter [call_fn]) and may read, allocate in and update the heap. *)

From Stdlib Require Import ZArith.
From stdpp Require Import base option list strings gmap.

Open Scope string_scope.
Open Scope list_scope.

(** ** Python values *)

Definition addr := nat.

(** An exception instance: its class and its message. *)
Record Exn := mkExn { exn_type : string; exn_msg : string }.

(** What [sys.exc_info()] captures, [(type(value), value, traceback)]; the
    type is the class of the value, the traceback the frames passed. *)
Record ExcInfo := mkExcInfo { ei_value : Exn; ei_tb : list string }.

Definition ei_type (ei : ExcInfo) : string := exn_type (ei_value ei).

Inductive Value :=
| VNone
| VInt (n : Z)
| VStr (s : string)
| VExcInfo (ei : ExcInfo)
| VRef (a : addr).

(** The result of running Python code: it returns or it raises. *)
Inductive Outcome (A : Type) :=
| Return (a : A)
| Raise (ei : ExcInfo).
Arguments Return {A} a.
Arguments Raise {A} ei.

(** [type(obj)] for effect-like objects: [Effect] itself or a proper
    subclass of it. *)
Inductive EffectClass :=
| ExactEffect
| EffectSubclass (name : string).

(** The callables sitting in a callback pair: a user function, or one of
    the two closures [SUCC]/[ERR] of [sync_perform], which append their
    argument to the list they captured. *)
Inductive Callable (Fn : Type) :=
| UserFn (f : Fn)
| Collector (cell : Value).
Arguments UserFn {Fn} f.
Arguments Collector {Fn} cell.

Definition CallbackPair (Fn : Type) : Type :=
  option (Callable Fn) * option (Callable Fn).

(** Heap objects: an effect (its class, [intent] and [callbacks]), any
    other instance with its attribute dictionary ([StubIntent] is one),
    and a Python list. *)
Inductive Obj (Fn : Type) :=
| OEffect (cls : EffectClass) (intent : Value) (callbacks : list (CallbackPair Fn))
| OInstance (cls : string) (attrs : gmap string Value)
| OList (items : list Value).
Arguments OEffect {Fn} cls intent callbacks.
Arguments OInstance {Fn} cls attrs.
Arguments OList {Fn} items.

(** The heap: allocation appends, so an address is an index. *)
Definition Heap (Fn : Type) : Type := list (Obj Fn).

(** Exceptions the interpreter itself raises. *)
Definition attribute_error (name : string) : ExcInfo :=
  mkExcInfo (mkExn "AttributeError" name) [].
Definition type_error (what : string) : ExcInfo :=
  mkExcInfo (mkExn "TypeError" what) [].

(** [class StubIntent]: [__init__] stores [result]. *)
Definition StubIntent {Fn} (result : Value) : Obj Fn :=
  OInstance "StubIntent" {[ "result" := result ]}.

Section Engine.
Variable Fn : Type.

(** Calling a user function on an argument in a heap. *)
Variable call_fn : Fn -> Value -> Heap Fn -> Outcome Value * Heap Fn.

Local Abbreviation heap := (Heap Fn).
Local Abbreviation pair := (CallbackPair Fn).

(** A computation over the heap that may raise. *)
Definition M (A : Type) : Type := heap -> Outcome A * heap.

Definition ret {A} (a : A) : M A := fun h => (Return a, h).
Definition throw {A} (ei : ExcInfo) : M A := fun h => (Raise ei, h).
Definition bind {A B} (m : M A) (k : A -> M B) : M B :=
  fun h => match m h with
           | (Return a, h') => k a h'
           | (Raise ei, h') => (Raise ei, h')
           end.

Local Notation "'let!' x ':=' m 'in' k" := (bind m (fun x => k))
  (at level 10, x name, m at level 200, k at level 200).

Definition alloc (o : Obj Fn) : M Value :=
  fun h => (Return (VRef (length h)), h ++ [o]).

Definition deref (h : heap) (v : Value) : option (Obj Fn) :=
  match v with
  | VRef a => h !! a
  | _ => None
  end.

(** [v.intent] and [v.callbacks]. *)
Definition get_intent (v : Value) : M Value :=
  fun h => match deref h v with
           | Some (OEffect _ i _) => (Return i, h)
           | _ => (Raise (attribute_error "intent"), h)
           end.

Definition get_callbacks (v : Value) : M (list pair) :=
  fun h => match deref h v with
           | Some (OEffect _ _ cbs) => (Return cbs, h)
           | _ => (Raise (attribute_error "callbacks"), h)
           end.

(** [v.result]: any instance carrying the attribute answers. *)
Definition get_result (v : Value) : M Value :=
  fun h => match deref h v with
           | Some (OInstance _ attrs) =>
               match attrs !! "result" with
               | Some r => (Return r, h)
               | None => (Raise (attribute_error "result"), h)
               end
           | _ => (Raise (attribute_error "result"), h)
           end.

(** [type(v) is Effect]. *)
Definition type_is_Effect (h : heap) (v : Value) : bool :=
  match deref h v with
  | Some (OEffect ExactEffect _ _) => true
  | _ => false
  end.

(** [isinstance(v, Effect)] with [type(v) is not Effect]. *)
Definition is_proper_subclass_instance (h : heap) (v : Value) : bool :=
  match deref h v with
  | Some (OEffect (EffectSubclass _) _ _) => true
  | _ => false
  end.

(** [cell.append(x)]: the list object is updated in place. *)
Definition append (cell x : Value) : M Value :=
  fun h => match cell with
           | VRef a =>
               match h !! a with
               | Some (OList items) =>
                   (Return VNone, <[a := OList (items ++ [x])]> h)
               | _ => (Raise (attribute_error "append"), h)
               end
           | _ => (Raise (attribute_error "append"), h)
           end.

(** The items of a list object, for its truth value and [cell[0]]. *)
Definition get_items (cell : Value) : M (list Value) :=
  fun h => match deref h cell with
           | Some (OList items) => (Return items, h)
           | _ => (Raise (type_error "list"), h)
           end.

(** Calling a callable: user code through [call_fn]; a collector
    appends and returns [None]. *)
Definition call (cb : Callable Fn) (x : Value) : M Value :=
  match cb with
  | UserFn f => call_fn f x
  | Collector cell => append cell x
  end.

(** Modelled from the spec: [Effect.with_callbacks] of the effect
    package, absent from the sources; it constructs a deferred
    computation value from an intent and an ordered continuation
    sequence.  It is called on the class [Effect], so the object is an
    [Effect] proper. *)
Definition with_callbacks (intent : Value) (callbacks : list pair) : M Value :=
  alloc (OEffect ExactEffect intent callbacks).

(** Modelled from the spec: [Effect.on] of the effect package, absent
    from the sources; it attaches a terminal success/error pair to a
    value, returning a new value. *)
Definition on (effect : Value) (success error : option (Callable Fn)) : M Value :=
  let! intent := get_intent effect in
  let! callbacks := get_callbacks effect in
  with_callbacks intent (callbacks ++ [(success, error)]).

(** [six.reraise] on the unpacked [result]: raise the captured value
    with its traceback.  A payload that is no [exc_info] triple cannot be
    unpacked into an exception and ends in a [TypeError]. *)
Definition reraise {A} (result : Value) : M A :=
  match result with
  | VExcInfo ei => throw ei
  | _ => throw (type_error "reraise")
  end.

(** *** resolve_effect *)

(** The variables the [for] loop carries: [result], [is_error] and the
    heap. *)
Record LoopState := mkLoop {
  ls_result : Value;
  ls_is_error : bool;
  ls_heap : heap
}.

(** One pass through the loop body either falls through to the next
    iteration or leaves the function by [return]. *)
Inductive Step :=
| Continue (st : LoopState)
| Stop (out : Outcome Value) (h : heap).

(** [try: is_error = False; result = cb(result)
     except: is_error = True; result = sys.exc_info()] *)
Definition try_call (cb : Callable Fn) (st : LoopState) : LoopState :=
  match call cb (ls_result st) (ls_heap st) with
  | (Return v, h') => mkLoop v false h'
  | (Raise ei, h') => mkLoop (VExcInfo ei) true h'
  end.

(** The callable the body selects: [errback if is_error else callback]. *)
Definition select (is_error : bool) (p : pair) : option (Callable Fn) :=
  if is_error then snd p else fst p.

(** [Effect.with_callbacks(result.intent,
                           result.callbacks + effect.callbacks[i + 1:])] *)
Definition wrap_remaining (effect : Value) (i : nat) (result : Value) : M Value :=
  let! intent := get_intent result in
  let! inner := get_callbacks result in
  let! outer := get_callbacks effect in
  with_callbacks intent (inner ++ drop (S i) outer).

Definition loop_body (effect : Value) (i : nat) (p : pair) (st : LoopState) : Step :=
  match select (ls_is_error st) p with
  | None => Continue st
  | Some cb =>
      let st' := try_call cb st in
      if type_is_Effect (ls_heap st') (ls_result st') then
        let '(out, h) := wrap_remaining effect i (ls_result st') (ls_heap st') in
        Stop out h
      else Continue st'
  end.

(** [for i, (callback, errback) in enumerate(slots)], from index [i]. *)
Fixpoint run_slots (effect : Value) (i : nat) (slots : list pair) (st : LoopState) : Step :=
  match slots with
  | [] => Continue st
  | p :: rest =>
      match loop_body effect i p st with
      | Continue st' => run_slots effect (S i) rest st'
      | Stop out h => Stop out h
      end
  end.

(** The code after the loop. *)
Definition finish (st : LoopState) : Outcome Value * heap :=
  if ls_is_error st then reraise (ls_result st) (ls_heap st)
  else (Return (ls_result st), ls_heap st).

Definition resolve_effect (effect : Value) (result : Value) (is_error : bool) : M Value :=
  fun h =>
    match get_callbacks effect h with
    | (Raise ei, h') => (Raise ei, h')
    | (Return callbacks, h') =>
        match run_slots effect 0 callbacks (mkLoop result is_error h') with
        | Continue st => finish st
        | Stop out h'' => (out, h'')
        end
    end.

(** *** fail_effect *)

(** [raise exception] followed by [sys.exc_info()] in the handler. *)
Definition capture (exception : Exn) : ExcInfo :=
  mkExcInfo exception ["fail_effect"].

Definition fail_effect (effect : Value) (exception : Exn) : M Value :=
  resolve_effect effect (VExcInfo (capture exception)) true.

(** *** resolve_stub *)

Definition resolve_stub (effect : Value) : M Value :=
  let! intent := get_intent effect in
  let! result := get_result intent in
  resolve_effect effect result false.

(** *** sync_perform *)

(** [perform] of the effect package, absent from the sources: it takes
    the effect and the dispatcher, runs over the heap and returns or
    raises.  Nothing else is assumed of it. *)
Variable perform : Value -> Value -> M Value.

(** [AssertionError("Performing %r was not synchronous!" % (effect,))];
    the message is kept with its placeholder, the [repr] of the effect
    is not computed. *)
Definition not_synchronous : ExcInfo :=
  mkExcInfo (mkExn "AssertionError" "Performing %r was not synchronous!")
            ["sync_perform"].

(** Lines 113 to 122: the two collections, the two closures over them
    and the effect they are attached to. *)
Definition sync_setup (effect : Value) : M (Value * Value * Value) :=
  let! successes := alloc (OList []) in
  let! errors := alloc (OList []) in
  let SUCC := Collector successes in
  let ERR := Collector errors in
  let! effect := on effect (Some SUCC) (Some ERR) in
  ret (successes, errors, effect).

(** Lines 124 to 129: what is done with the collections once [perform]
    has returned. *)
Definition sync_result (successes errors : Value) : M Value :=
  let! ss := get_items successes in
  match ss with
  | x :: _ => ret x
  | [] =>
      let! es := get_items errors in
      match es with
      | x :: _ => reraise x
      | [] => throw not_synchronous
      end
  end.

Definition sync_perform (effect dispatcher : Value) : M Value :=
  let! locals := sync_setup effect in
  let '(successes, errors, effect) := locals in
  let! _ := perform effect dispatcher in
  sync_result successes errors.

End Engine.

Arguments M Fn A : clear implicits.
Arguments ret {Fn A} a h.
Arguments throw {Fn A} ei h.
Arguments bind {Fn A B} m k h.
Arguments alloc {Fn} o h.
Arguments deref {Fn} h v.
Arguments get_intent {Fn} v h.
Arguments get_callbacks {Fn} v h.
Arguments get_result {Fn} v h.
Arguments get_items {Fn} cell h.
Arguments append {Fn} cell x h.
Arguments type_is_Effect {Fn} h v.
Arguments is_proper_subclass_instance {Fn} h v.
Arguments with_callbacks {Fn} intent callbacks h.
Arguments on {Fn} effect success error h.
Arguments reraise {Fn A} result h.
Arguments LoopState Fn : clear implicits.
Arguments Step Fn : clear implicits.
Arguments mkLoop {Fn} ls_result ls_is_error ls_heap.
Arguments ls_result {Fn} l.
Arguments ls_is_error {Fn} l.
Arguments ls_heap {Fn} l.
Arguments Continue {Fn} st.
Arguments Stop {Fn} out h.
Arguments select {Fn} is_error p.
Arguments call {Fn} call_fn cb x h.
Arguments try_call {Fn} call_fn cb st.
Arguments wrap_remaining {Fn} effect i result h.
Arguments loop_body {Fn} call_fn effect i p st.
Arguments run_slots {Fn} call_fn effect i slots st.
Arguments finish {Fn} st.
Arguments resolve_effect {Fn} call_fn effect result is_error h.
Arguments fail_effect {Fn} call_fn effect exception h.
Arguments resolve_stub {Fn} call_fn effect h.
Arguments sync_setup {Fn} effect h.
Arguments sync_result {Fn} successes errors h.
Arguments sync_perform {Fn} perform effect dispatcher h.

(** ** The specification's vocabulary *)

(** The state in which the loop enters slot [i], when it gets there. *)
Definition state_at {Fn} call_fn (effect : Value) (callbacks : list (CallbackPair Fn))
    (i : nat) (st : LoopState Fn) : Step Fn :=
  run_slots call_fn effect 0 (take i callbacks) st.

(** The left-to-right fold of the success continuations over a result; an
    absent one is the identity. *)
Definition apply_success {Fn} call_fn (acc : Outcome Value * Heap Fn)
    (p : CallbackPair Fn) : Outcome Value * Heap Fn :=
  match fst p, acc with
  | Some cb, (Return v, h) => call call_fn cb v h
  | _, _ => acc
  end.

Definition fold_success {Fn} call_fn (callbacks : list (CallbackPair Fn))
    (r : Value) (h : Heap Fn) : Outcome Value * Heap Fn :=
  fold_left (apply_success call_fn) callbacks (Return r, h).

(** A continuation that never raises and never hands back an [Effect]. *)
Definition plain {Fn} call_fn (cb : Callable Fn) : Prop :=
  forall x h, exists v h',
    call call_fn cb x h = (Return v, h') /\ type_is_Effect h' v = false.

(** What applying a continuation to a value is: a user function is
    called on it; [SUCC] and [ERR] append it to their list and return
    [None]. *)
Definition apply_continuation {Fn}
    (call_fn : Fn -> Value -> Heap Fn -> Outcome Value * Heap Fn)
    (cb : Callable Fn) (v : Value) (h : Heap Fn) : Outcome Value * Heap Fn :=
  match cb with
  | UserFn f => call_fn f v h
  | Collector cell => append cell v h
  end.

(** One step of the fold of the success continuations: an absent one
    leaves the value as it is. *)
Definition fold_step {Fn} call_fn (acc : Outcome Value * Heap Fn)
    (p : CallbackPair Fn) : Outcome Value * Heap Fn :=
  match fst p, acc with
  | Some cb, (Return v, h) => apply_continuation call_fn cb v h
  | _, _ => acc
  end.

Definition fold_continuations {Fn} call_fn (callbacks : list (CallbackPair Fn))
    (r : Value) (h : Heap Fn) : Outcome Value * Heap Fn :=
  fold_left (fold_step call_fn) callbacks (Return r, h).

(** On the run from [r] in [h], no success continuation of the chain
    raises and none returns an [Effect]. *)
Fixpoint quiet_run {Fn} call_fn (callbacks : list (CallbackPair Fn))
    (r : Value) (h : Heap Fn) : Prop :=
  match callbacks with
  | [] => True
  | p :: rest =>
      match fst p with
      | None => quiet_run call_fn rest r h
      | Some cb =>
          exists v h',
            apply_continuation call_fn cb r h = (Return v, h') /\
            type_is_Effect h' v = false /\
            quiet_run call_fn rest v h'
      end
  end.

(** The class test the specification words [resolve_stub] with. *)
Definition is_StubIntent {Fn} (o : Obj Fn) : bool :=
  match o with
  | OInstance cls _ => String.eqb cls "StubIntent"
  | _ => false
  end.

(** In error mode the payload is a captured [exc_info] triple, the only
    thing [six.reraise] can raise again. *)
Definition carries_exc_info {Fn} (st : LoopState Fn) : Prop :=
  ls_is_error st = true -> exists ei, ls_result st = VExcInfo ei.

(** A pair both of whose sides are absent or user functions: no
    collector closure of [sync_perform] sits in it. *)
Definition user_side {Fn} (cb : option (Callable Fn)) : Prop :=
  match cb with
  | Some (Collector _) => False
  | _ => True
  end.

Definition user_pair {Fn} (p : CallbackPair Fn) : Prop :=
  user_side (fst p) /\ user_side (snd p).

(** ** Concrete function objects and performers *)

Module Sample.

(** A few Python functions. *)
#[local] Unset Elimination Schemes.
Inductive fn :=
| Add (k : Z)
| Boom (e : Exn)
| Spawn (cls : EffectClass) (intent : Value) (callbacks : list (CallbackPair fn))
| Ident.
#[local] Set Elimination Schemes.

(** [Add k] is [lambda x: x + k if isinstance(x, int) else None];
    [Boom e] raises [e]; [Spawn cls intent callbacks] builds and returns
    an object of class [cls] with that intent and those callbacks;
    [Ident] is [lambda x: x]. *)
Definition call_fn (f : fn) (x : Value) (h : Heap fn) : Outcome Value * Heap fn :=
  match f with
  | Add k =>
      match x with
      | VInt n => (Return (VInt (n + k)), h)
      | _ => (Return VNone, h)
      end
  | Boom e => (Raise (mkExcInfo e ["Boom"]), h)
  | Spawn cls intent callbacks => alloc (OEffect cls intent callbacks) h
  | Ident => (Return x, h)
  end.

(** A performer that defers: it returns without delivering anything. *)
Definition perform_deferred (effect dispatcher : Value) : M fn Value :=
  ret VNone.

(** A synchronous performer for stub intents: it hands the stub's
    result to the chain before returning. *)
Definition perform_stub (effect dispatcher : Value) : M fn Value :=
  fun h => (Return VNone, snd (resolve_stub call_fn effect h)).

(** A performer that delivers twice, a success and then a failure. *)
Definition perform_twice (effect dispatcher : Value) : M fn Value :=
  fun h =>
    let h1 := snd (resolve_effect call_fn effect (VInt 1) false h) in
    (Return VNone, snd (fail_effect call_fn effect (mkExn "IOError" "late") h1)).

(** [Effect(StubIntent(result))] with the given callbacks, in an empty
    heap: the intent at address 0, the effect at address 1. *)
Definition stub_heap (result : Value) (callbacks : list (CallbackPair fn)) : Heap fn :=
  [StubIntent result; OEffect ExactEffect (VRef 0) callbacks].

(** The intent of the first, not a [StubIntent], has a [result]
    attribute all the same. *)
Definition duck_heap : Heap fn :=
  [OInstance "Delay" {[ "result" := VInt 7 ]}; OEffect ExactEffect (VRef 0) []].

(** Continuation pairs and chains to run the engine on. *)
Definition c1 : CallbackPair fn := (Some (UserFn (Add 100)), None).
Definition c2 : CallbackPair fn := (None, Some (UserFn (Add 200))).
Definition c3 : CallbackPair fn := (Some (UserFn (Add 300)), None).
Definition c4 : CallbackPair fn := (None, None).

Definition chain : list (CallbackPair fn) :=
  [(Some (UserFn (Add 1)), None);
   (None, Some (UserFn (Add 5)));
   (Some (UserFn (Add 10)), Some (UserFn (Boom (mkExn "KeyError" "k"))))].

Definition no_errbacks : list (CallbackPair fn) :=
  [(Some (UserFn (Add 1)), None); (None, None); (Some (UserFn (Add 10)), None)].

Definition spawning : list (CallbackPair fn) :=
  [(Some (UserFn (Add 1)), None);
   (Some (UserFn (Spawn ExactEffect (VInt 9) [c1; c2])), None);
   c3; c4].

Definition subclassing : list (CallbackPair fn) :=
  [(Some (UserFn (Spawn (EffectSubclass "ParallelEffect") (VInt 9) [c1; c2])), None)].

(** A chain whose second success continuation raises, with nothing to
    catch it. *)
Definition failing : list (CallbackPair fn) :=
  [(Some (UserFn (Add 1)), None);
   (Some (UserFn (Boom (mkExn "KeyError" "k"))), None);
   (Some (UserFn (Add 10)), None)].

(** A chain with the identity in it, which hands back an [Effect] when
    given one and a plain value otherwise. *)
Definition mixed : list (CallbackPair fn) :=
  [(Some (UserFn Ident), None);
   (None, Some (UserFn (Boom (mkExn "KeyError" "k"))));
   (Some (UserFn (Add 1)), Some (UserFn Ident))].

(** The same success continuations with other error continuations. *)
Definition mixed_bare : list (CallbackPair fn) :=
  [(Some (UserFn Ident), Some (UserFn (Add 3)));
   (None, None);
   (Some (UserFn (Add 1)), None)].

Definition two_mixed : Heap fn :=
  [StubIntent (VInt 42);
   OEffect ExactEffect (VRef 0) mixed;
   OEffect ExactEffect (VRef 0) mixed_bare].

(** A chain that absorbs an injected failure at its second pair. *)
Definition absorbing : list (CallbackPair fn) :=
  [(Some (UserFn (Add 1)), None);
   (None, Some (UserFn Ident));
   (Some (UserFn Ident), Some (UserFn (Boom (mkExn "KeyError" "k"))))].

(** A performer that delivers a failure. *)
Definition perform_failing (effect dispatcher : Value) : M fn Value :=
  fun h => (Return VNone, snd (fail_effect call_fn effect (mkExn "IOError" "late") h)).

(** A performer that fails. *)
Definition perform_broken (effect dispatcher : Value) : M fn Value :=
  throw (mkExcInfo (mkExn "KeyError" "no performer") ["perform"]).

End Sample.

(** ** Properties of the resolution engine *)

Section EngineProperties.
Context {Fn : Type}.
Variable call_fn : Fn -> Value -> Heap Fn -> Outcome Value * Heap Fn.

Implicit Types (h : Heap Fn) (st : LoopState Fn) (p : CallbackPair Fn).
Implicit Types (callbacks slots : list (CallbackPair Fn)).
Implicit Types (effect result intent : Value).

Lemma get_callbacks_effect h effect cls intent callbacks :
  deref h effect = Some (OEffect cls intent callbacks) ->
  get_callbacks effect h = (Return callbacks, h).
Proof. unfold get_callbacks. by intros ->. Qed.

Lemma get_intent_effect h effect cls intent callbacks :
  deref h effect = Some (OEffect cls intent callbacks) ->
  get_intent effect h = (Return intent, h).
Proof. unfold get_intent. by intros ->. Qed.

(** Splitting the loop at any point of the slot list. *)
Lemma run_slots_app effect slots1 slots2 i st :
  run_slots call_fn effect i (slots1 ++ slots2) st =
  match run_slots call_fn effect i slots1 st with
  | Continue st' => run_slots call_fn effect (i + length slots1) slots2 st'
  | Stop out h => Stop out h
  end.
Proof.
  revert i st. induction slots1 as [|p slots1 IH]; intros i st; simpl.
  - by rewrite Nat.add_0_r.
  - destruct (loop_body call_fn effect i p st) as [st'|out h]; [|done].
    rewrite IH. by replace (S i + length slots1) with (i + S (length slots1)) by lia.
Qed.

(** Entering slot [i + 1] is entering slot [i] and running its body. *)
Lemma state_at_S effect callbacks i p st0 :
  callbacks !! i = Some p ->
  state_at call_fn effect callbacks (S i) st0 =
  match state_at call_fn effect callbacks i st0 with
  | Continue st => loop_body call_fn effect i p st
  | Stop out h => Stop out h
  end.
Proof.
  intros Hp. unfold state_at.
  rewrite (take_S_r _ _ _ Hp), run_slots_app.
  destruct (run_slots call_fn effect 0 (take i callbacks) st0) as [st|out h]; [|done].
  simpl. rewrite length_take_le by (apply lookup_lt_Some in Hp; lia).
  by destruct (loop_body call_fn effect i p st).
Qed.

(** The whole loop is the loop up to slot [i], then the rest. *)
Lemma run_slots_from effect callbacks i st0 :
  run_slots call_fn effect 0 callbacks st0 =
  match state_at call_fn effect callbacks i st0 with
  | Continue st => run_slots call_fn effect (i `min` length callbacks) (drop i callbacks) st
  | Stop out h => Stop out h
  end.
Proof.
  unfold state_at.
  rewrite <- (take_drop i callbacks) at 1. rewrite run_slots_app.
  by rewrite length_take.
Qed.

(** C3: with no callbacks at all, a success result comes back unchanged
    and an error result is raised again, the heap untouched. *)
Theorem resolve_effect_no_callbacks h effect cls intent r ei :
  deref h effect = Some (OEffect cls intent []) ->
  resolve_effect call_fn effect r false h = (Return r, h) /\
  resolve_effect call_fn effect (VExcInfo ei) true h = (Raise ei, h).
Proof.
  intros Heff. unfold resolve_effect.
  by rewrite (get_callbacks_effect _ _ _ _ _ Heff).
Qed.

(** C4: a pair whose selected side is absent changes neither the mode
    nor the payload: the state entering slot [i + 1] is the state that
    entered slot [i], in error mode as in success mode. *)
Theorem absent_continuation_keeps_state effect callbacks i p st0 st :
  callbacks !! i = Some p ->
  state_at call_fn effect callbacks i st0 = Continue st ->
  select (ls_is_error st) p = None ->
  state_at call_fn effect callbacks (S i) st0 = Continue st.
Proof.
  intros Hp Hst Hsel. rewrite (state_at_S _ _ _ _ _ Hp), Hst.
  unfold loop_body. by rewrite Hsel.
Qed.

(** C1: when the continuation selected at slot [i] returns an [Effect],
    the engine returns at once a new effect carrying the returned
    effect's intent and its callbacks followed by
    [effect.callbacks[i+1:]]. *)
Theorem resolve_effect_reentrancy h effect cls intent callbacks
    i p cb result is_error st r h1 intent' inner :
  deref h effect = Some (OEffect cls intent callbacks) ->
  callbacks !! i = Some p ->
  state_at call_fn effect callbacks i (mkLoop result is_error h) = Continue st ->
  select (ls_is_error st) p = Some cb ->
  call call_fn cb (ls_result st) (ls_heap st) = (Return r, h1) ->
  deref h1 r = Some (OEffect ExactEffect intent' inner) ->
  deref h1 effect = Some (OEffect cls intent callbacks) ->
  resolve_effect call_fn effect result is_error h =
    (Return (VRef (length h1)),
     h1 ++ [OEffect ExactEffect intent' (inner ++ drop (S i) callbacks)]).
Proof.
  intros Heff Hp Hst Hsel Hcall Hr Heff1. unfold resolve_effect.
  rewrite (get_callbacks_effect _ _ _ _ _ Heff).
  rewrite (run_slots_from effect callbacks (S i)).
  rewrite (state_at_S _ _ _ _ _ Hp), Hst.
  unfold loop_body. rewrite Hsel. unfold try_call. rewrite Hcall. simpl.
  unfold type_is_Effect. rewrite Hr.
  unfold wrap_remaining, bind.
  rewrite (get_intent_effect _ _ _ _ _ Hr), (get_callbacks_effect _ _ _ _ _ Hr).
  by rewrite (get_callbacks_effect _ _ _ _ _ Heff1).
Qed.

(** C10: the test is [type(result) is Effect].  An instance of a proper
    subclass of [Effect] returned by the continuation of slot [i] is an
    ordinary success payload: the loop goes on to slot [i + 1] with it,
    and returns it when slot [i] was the last one. *)
Theorem subclass_instance_is_payload h effect cls intent callbacks
    i p cb result is_error st r h1 :
  deref h effect = Some (OEffect cls intent callbacks) ->
  callbacks !! i = Some p ->
  state_at call_fn effect callbacks i (mkLoop result is_error h) = Continue st ->
  select (ls_is_error st) p = Some cb ->
  call call_fn cb (ls_result st) (ls_heap st) = (Return r, h1) ->
  is_proper_subclass_instance h1 r = true ->
  state_at call_fn effect callbacks (S i) (mkLoop result is_error h)
    = Continue (mkLoop r false h1) /\
  (S i = length callbacks ->
   resolve_effect call_fn effect result is_error h = (Return r, h1)).
Proof.
  intros Heff Hp Hst Hsel Hcall Hsub.
  assert (Hnext : state_at call_fn effect callbacks (S i) (mkLoop result is_error h)
                  = Continue (mkLoop r false h1)).
  { rewrite (state_at_S _ _ _ _ _ Hp), Hst.
    unfold loop_body. rewrite Hsel. unfold try_call. rewrite Hcall. simpl.
    unfold is_proper_subclass_instance in Hsub. unfold type_is_Effect.
    destruct (deref h1 r) as [[[|name] ? ?| |]|]; done. }
  split; [done|]. intros Hlast. unfold resolve_effect.
  rewrite (get_callbacks_effect _ _ _ _ _ Heff).
  rewrite (run_slots_from effect callbacks (S i)), Hnext.
  rewrite Hlast, drop_all. done.
Qed.

(** A chain of plain success continuations, run in success mode, is
    their fold. *)
Lemma run_slots_plain effect slots i r h :
  Forall (fun p => forall cb, fst p = Some cb -> plain call_fn cb) slots ->
  match run_slots call_fn effect i slots (mkLoop r false h) with
  | Continue st => finish st
  | Stop out h' => (out, h')
  end = fold_left (apply_success call_fn) slots (Return r, h).
Proof.
  intros Hall. revert i r h.
  induction Hall as [|p slots Hp _ IH]; intros i r h; [done|].
  simpl. unfold loop_body, select, apply_success at 2. simpl.
  destruct (fst p) as [cb|] eqn:Hcb; [|apply IH].
  destruct (Hp cb eq_refl r h) as (v & h' & Hcall & Hv).
  unfold try_call. simpl. rewrite Hcall. simpl. rewrite Hv. apply IH.
Qed.

(** A chain whose success continuations, on the run from [r], neither
    raise nor return an [Effect] is run as their fold. *)
Lemma run_slots_quiet effect slots i r h :
  quiet_run call_fn slots r h ->
  match run_slots call_fn effect i slots (mkLoop r false h) with
  | Continue st => finish st
  | Stop out h' => (out, h')
  end = fold_left (fold_step call_fn) slots (Return r, h).
Proof.
  revert i r h. induction slots as [|p slots IH]; intros i r h Hq; [done|].
  simpl in *. unfold loop_body, select, fold_step at 2. simpl.
  destruct (fst p) as [cb|]; [|by apply IH].
  destruct Hq as (v & h' & Hcall & Hv & Hrest).
  unfold try_call. simpl.
  replace (call call_fn cb r h) with (apply_continuation call_fn cb r h)
    by by destruct cb.
  rewrite Hcall. simpl. rewrite Hv. by apply IH.
Qed.

(** C2: when, on the run from [r], no success continuation of the chain
    raises or returns an [Effect], resolving with the success result [r]
    is the left-to-right fold of the success continuations over [r],
    absent ones being skipped. *)
Theorem resolve_effect_is_fold h effect cls intent callbacks r :
  deref h effect = Some (OEffect cls intent callbacks) ->
  quiet_run call_fn callbacks r h ->
  resolve_effect call_fn effect r false h = fold_continuations call_fn callbacks r h.
Proof.
  intros Heff Hq. unfold resolve_effect, fold_continuations.
  rewrite (get_callbacks_effect _ _ _ _ _ Heff).
  by apply run_slots_quiet.
Qed.

(** When the loop leaves by [return], it does so at a slot whose
    continuation handed back an [Effect]. *)
Lemma run_slots_stop effect slots i st out h' :
  run_slots call_fn effect i slots st = Stop out h' ->
  exists n p st_n cb r h1,
    slots !! n = Some p /\
    run_slots call_fn effect i (take n slots) st = Continue st_n /\
    select (ls_is_error st_n) p = Some cb /\
    call call_fn cb (ls_result st_n) (ls_heap st_n) = (Return r, h1) /\
    type_is_Effect h1 r = true /\
    wrap_remaining effect (i + n) r h1 = (out, h').
Proof.
  revert i st. induction slots as [|p slots IH]; intros i st; simpl; [done|].
  destruct (loop_body call_fn effect i p st) as [st1|out1 h1'] eqn:Hbody.
  - intros Hrun.
    destruct (IH _ _ Hrun)
      as (n & q & st_n & cb & r & h1 & Hq & Hpre & Hsel & Hcall & Hty & Hwrap).
    exists (S n), q, st_n, cb, r, h1. simpl. rewrite Hbody.
    repeat split; try done. by rewrite Nat.add_succ_r.
  - intros [= -> ->]. unfold loop_body in Hbody.
    destruct (select (ls_is_error st) p) as [cb|] eqn:Hsel; [|done].
    unfold try_call in Hbody.
    destruct (call call_fn cb (ls_result st) (ls_heap st)) as [[v|ei] h1] eqn:Hcall;
      simpl in Hbody; [|done].
    destruct (type_is_Effect h1 v) eqn:Hty; [|done].
    destruct (wrap_remaining effect i v h1) as [o hh] eqn:Hw.
    injection Hbody as <- <-.
    exists 0, p, st, cb, v, h1. rewrite Nat.add_0_r. done.
Qed.

(** In error mode, slots without an error continuation are all skipped. *)
Lemma run_slots_no_errbacks effect slots i st :
  ls_is_error st = true ->
  Forall (fun p => snd p = None) slots ->
  run_slots call_fn effect i slots st = Continue st.
Proof.
  intros Herr Hall. revert i.
  induction Hall as [|p slots Hp _ IH]; intros i; [done|].
  simpl. unfold loop_body, select. rewrite Herr, Hp. apply IH.
Qed.

(** C5: through an effect none of whose pairs has an error
    continuation, an injected exception is raised again with the type
    and the value it had; the heap is left as it was. *)
Theorem fail_effect_reraises h effect cls intent callbacks e :
  deref h effect = Some (OEffect cls intent callbacks) ->
  Forall (fun p => snd p = None) callbacks ->
  exists ei,
    fail_effect call_fn effect e h = (Raise ei, h) /\
    ei_value ei = e /\ ei_type ei = exn_type e.
Proof.
  intros Heff Hall. exists (capture e). split; [|done].
  unfold fail_effect, resolve_effect.
  rewrite (get_callbacks_effect _ _ _ _ _ Heff).
  by rewrite run_slots_no_errbacks.
Qed.


(** *** The engine writes nothing but one fresh effect *)

Section Frame.
Variable a : addr.
Variables (cls : EffectClass) (intent : Value) (callbacks : list (CallbackPair Fn)).

(** User code leaves the object at [a] alone. *)
Hypothesis call_fn_frame : forall f x h0 o,
  h0 !! a = Some o -> snd (call_fn f x h0) !! a = Some o.

Local Abbreviation E := (OEffect cls intent callbacks).

Lemma call_frame cb x h :
  h !! a = Some E -> snd (call call_fn cb x h) !! a = Some E.
Proof.
  intros Ha. destruct cb as [f|cell]; simpl; [by apply call_fn_frame|].
  unfold append. destruct cell as [| | | |c]; try done.
  destruct (h !! c) as [[| |items]|] eqn:Hc; try done. simpl.
  unfold Heap, addr in *.
  rewrite list_lookup_insert_ne; [done|]. intros ->. congruence.
Qed.

Lemma try_call_frame cb st :
  ls_heap st !! a = Some E -> ls_heap (try_call call_fn cb st) !! a = Some E.
Proof.
  intros Ha. unfold try_call.
  pose proof (call_frame cb (ls_result st) _ Ha) as Hc.
  by destruct (call call_fn cb (ls_result st) (ls_heap st)) as [[v|ei] h'].
Qed.

Lemma loop_body_frame i p st :
  ls_heap st !! a = Some E ->
  match loop_body call_fn (VRef a) i p st with
  | Continue st' => ls_heap st' !! a = Some E
  | Stop out h' =>
      exists hb intent' inner,
        hb !! a = Some E /\
        h' = hb ++ [OEffect ExactEffect intent' (inner ++ drop (S i) callbacks)] /\
        out = Return (VRef (length hb))
  end.
Proof.
  intros Ha. unfold loop_body.
  destruct (select (ls_is_error st) p) as [cb|]; [|done].
  pose proof (try_call_frame cb st Ha) as Ha'.
  destruct (try_call call_fn cb st) as [r e h1]. simpl in *.
  unfold type_is_Effect.
  destruct (deref h1 r) as [[[|name] intent' inner| |]|] eqn:Hr; try done.
  unfold wrap_remaining, bind.
  rewrite (get_intent_effect _ _ _ _ _ Hr), (get_callbacks_effect _ _ _ _ _ Hr).
  rewrite (get_callbacks_effect h1 (VRef a) cls intent callbacks Ha').
  simpl. by exists h1, intent', inner.
Qed.

Lemma run_slots_frame slots i st :
  ls_heap st !! a = Some E ->
  match run_slots call_fn (VRef a) i slots st with
  | Continue st' => ls_heap st' !! a = Some E
  | Stop out h' =>
      exists hb j intent' inner,
        i <= j < i + length slots /\
        hb !! a = Some E /\
        h' = hb ++ [OEffect ExactEffect intent' (inner ++ drop (S j) callbacks)] /\
        out = Return (VRef (length hb))
  end.
Proof.
  revert i st. induction slots as [|p slots IH]; intros i st Ha; [done|].
  simpl. pose proof (loop_body_frame i p st Ha) as Hb.
  destruct (loop_body call_fn (VRef a) i p st) as [st'|out h'].
  - specialize (IH (S i) st' Hb).
    destruct (run_slots call_fn (VRef a) (S i) slots st') as [st''|out h']; [done|].
    destruct IH as (hb & j & intent' & inner & Hj & ?).
    exists hb, j, intent', inner. split; [lia|done].
  - destruct Hb as (hb & intent' & inner & ?).
    exists hb, i, intent', inner. split; [lia|done].
Qed.


End Frame.

End EngineProperties.

(** ** Properties of the synchronous harness *)

Section HarnessProperties.
Context {Fn : Type}.
Variable perform : Value -> Value -> M Fn Value.

Implicit Types (h : Heap Fn) (ss es : list Value).

(** What the set-up does on an effect object: two empty lists and the
    effect with the terminal pair, at the end of the heap. *)
Lemma sync_setup_effect h effect cls intent callbacks :
  deref h effect = Some (OEffect cls intent callbacks) ->
  let successes := VRef (length h) in
  let errors := VRef (S (length h)) in
  sync_setup effect h =
    (Return (successes, errors, VRef (S (S (length h)))),
     h ++ [OList []; OList [];
           OEffect ExactEffect intent
             (callbacks ++ [(Some (Collector successes), Some (Collector errors))])]).
Proof.
  intros Heff. unfold sync_setup, bind, alloc, on, bind, with_callbacks, alloc.
  assert (Heff' : deref ((h ++ [OList []]) ++ [OList []]) effect
                  = Some (OEffect cls intent callbacks)).
  { destruct effect as [| | | |a]; try done. simpl in *.
    unfold Heap, addr in *.
    rewrite <- app_assoc, lookup_app_l; [done|]. by apply lookup_lt_Some in Heff. }
  rewrite (get_intent_effect _ _ _ _ _ Heff'), (get_callbacks_effect _ _ _ _ _ Heff').
  unfold ret. simpl. rewrite !length_app. simpl.
  rewrite <- !app_assoc. simpl.
  by rewrite !Nat.add_1_r.
Qed.

(** Once [perform] has returned, the outcome is read off the two
    collections. *)
Lemma sync_perform_after_perform h effect dispatcher successes errors effect' h1 v h2 :
  sync_setup effect h = (Return (successes, errors, effect'), h1) ->
  perform effect' dispatcher h1 = (Return v, h2) ->
  sync_perform perform effect dispatcher h = sync_result successes errors h2.
Proof.
  intros Hsetup Hperf. unfold sync_perform, bind.
  rewrite Hsetup. simpl. by rewrite Hperf.
Qed.


(** C9: when both collections are filled after [perform] has returned,
    the first collected success is returned and the collected errors
    are ignored. *)
Theorem sync_perform_prefers_success h effect dispatcher successes errors effect' h1 v h2
    x ss y es :
  sync_setup effect h = (Return (successes, errors, effect'), h1) ->
  perform effect' dispatcher h1 = (Return v, h2) ->
  get_items successes h2 = (Return (x :: ss), h2) ->
  get_items errors h2 = (Return (y :: es), h2) ->
  sync_perform perform effect dispatcher h = (Return x, h2).
Proof.
  intros Hsetup Hperf Hss _.
  rewrite (sync_perform_after_perform _ _ _ _ _ _ _ _ _ Hsetup Hperf).
  unfold sync_result, bind. by rewrite Hss.
Qed.

End HarnessProperties.

(** ** The properties on concrete runs *)

Section Runs.
Import Sample.

Local Abbreviation H42 := (stub_heap (VInt 42)).

Lemma call_fn_allocates_only a f x (h : Heap fn) o :
  h !! a = Some o -> snd (call_fn f x h) !! a = Some o.
Proof.
  intros Ha. destruct f as [k|e|cls intent callbacks|]; simpl.
  - by destruct x.
  - done.
  - unfold Heap, addr in *. by apply lookup_app_l_Some.
  - done.
Qed.

Lemma resolve_effect_no_callbacks_witness :
  deref (H42 []) (VRef 1) = Some (OEffect ExactEffect (VRef 0) []) /\
  (resolve_effect call_fn (VRef 1) (VInt 42) false (H42 [])
     = (Return (VInt 42), H42 []) /\
   resolve_effect call_fn (VRef 1)
       (VExcInfo (mkExcInfo (mkExn "ValueError" "x") [])) true (H42 [])
     = (Raise (mkExcInfo (mkExn "ValueError" "x") []), H42 [])).
Proof.
  split; [reflexivity|].
  apply (resolve_effect_no_callbacks call_fn (H42 []) (VRef 1) ExactEffect (VRef 0)).
  reflexivity.
Defined.

Lemma absent_continuation_keeps_state_witness :
  chain !! 1 = Some (None, Some (UserFn (Add 5))) /\
  state_at call_fn (VRef 1) chain 1 (mkLoop (VInt 42) false (H42 chain))
    = Continue (mkLoop (VInt 43) false (H42 chain)) /\
  select false (None, Some (UserFn (Add 5))) = None /\
  state_at call_fn (VRef 1) chain 2 (mkLoop (VInt 42) false (H42 chain))
    = Continue (mkLoop (VInt 43) false (H42 chain)).
Proof.
  do 3 (split; [reflexivity|]).
  apply (absent_continuation_keeps_state call_fn (VRef 1) chain 1
           (None, Some (UserFn (Add 5)))); reflexivity.
Defined.

Local Abbreviation Hs := (H42 spawning).
Local Abbreviation Hs1 := (H42 spawning ++ [OEffect ExactEffect (VInt 9) [c1; c2]]).

Lemma resolve_effect_reentrancy_witness :
  deref Hs (VRef 1) = Some (OEffect ExactEffect (VRef 0) spawning) /\
  state_at call_fn (VRef 1) spawning 1 (mkLoop (VInt 42) false Hs)
    = Continue (mkLoop (VInt 43) false Hs) /\
  call call_fn (UserFn (Spawn ExactEffect (VInt 9) [c1; c2])) (VInt 43) Hs
    = (Return (VRef 2), Hs1) /\
  resolve_effect call_fn (VRef 1) (VInt 42) false Hs
    = (Return (VRef 3), Hs1 ++ [OEffect ExactEffect (VInt 9) [c1; c2; c3; c4]]).
Proof.
  do 3 (split; [reflexivity|]).
  apply (resolve_effect_reentrancy call_fn (H42 spawning) (VRef 1) ExactEffect (VRef 0)
           spawning 1 (Some (UserFn (Spawn ExactEffect (VInt 9) [c1; c2])), None)
           (UserFn (Spawn ExactEffect (VInt 9) [c1; c2])) (VInt 42) false
           (mkLoop (VInt 43) false (H42 spawning)) (VRef 2)
           (H42 spawning ++ [OEffect ExactEffect (VInt 9) [c1; c2]]) (VInt 9) [c1; c2]);
    reflexivity.
Defined.

Local Abbreviation Hp := (H42 subclassing).
Local Abbreviation Hp1 :=
  (H42 subclassing ++ [OEffect (EffectSubclass "ParallelEffect") (VInt 9) [c1; c2]]).

Lemma subclass_instance_is_payload_witness :
  deref Hp (VRef 1) = Some (OEffect ExactEffect (VRef 0) subclassing) /\
  call call_fn (UserFn (Spawn (EffectSubclass "ParallelEffect") (VInt 9) [c1; c2]))
       (VInt 42) Hp = (Return (VRef 2), Hp1) /\
  is_proper_subclass_instance Hp1 (VRef 2) = true /\
  state_at call_fn (VRef 1) subclassing 1 (mkLoop (VInt 42) false Hp)
    = Continue (mkLoop (VRef 2) false Hp1) /\
  (1 = length subclassing ->
   resolve_effect call_fn (VRef 1) (VInt 42) false Hp = (Return (VRef 2), Hp1)).
Proof.
  do 3 (split; [reflexivity|]).
  apply (subclass_instance_is_payload call_fn Hp (VRef 1) ExactEffect (VRef 0)
           subclassing 0
           (Some (UserFn (Spawn (EffectSubclass "ParallelEffect") (VInt 9) [c1; c2])), None)
           (UserFn (Spawn (EffectSubclass "ParallelEffect") (VInt 9) [c1; c2]))
           (VInt 42) false (mkLoop (VInt 42) false Hp) (VRef 2) Hp1);
    reflexivity.
Defined.

Lemma resolve_effect_is_fold_witness :
  deref (H42 mixed) (VRef 1) = Some (OEffect ExactEffect (VRef 0) mixed) /\
  quiet_run call_fn mixed (VInt 42) (H42 mixed) /\
  resolve_effect call_fn (VRef 1) (VInt 42) false (H42 mixed)
    = fold_continuations call_fn mixed (VInt 42) (H42 mixed).
Proof.
  assert (Hq : quiet_run call_fn mixed (VInt 42) (H42 mixed)).
  { simpl. exists (VInt 42), (H42 mixed). do 2 (split; [reflexivity|]).
    exists (VInt 43), (H42 mixed). by do 2 (split; [reflexivity|]). }
  split; [reflexivity|]. split; [exact Hq|].
  apply (resolve_effect_is_fold call_fn (H42 mixed) (VRef 1) ExactEffect (VRef 0));
    [reflexivity | exact Hq].
Defined.

Example resolve_effect_mixed_43 :
  resolve_effect call_fn (VRef 1) (VInt 42) false (H42 mixed)
    = (Return (VInt 43), H42 mixed).
Proof. reflexivity. Qed.

Lemma fail_effect_reraises_witness :
  deref (H42 no_errbacks) (VRef 1) = Some (OEffect ExactEffect (VRef 0) no_errbacks) /\
  Forall (fun p => snd p = None) no_errbacks /\
  exists ei,
    fail_effect call_fn (VRef 1) (mkExn "ValueError" "x") (H42 no_errbacks)
      = (Raise ei, H42 no_errbacks) /\
    ei_value ei = mkExn "ValueError" "x" /\ ei_type ei = "ValueError".
Proof.
  split; [reflexivity|]. split; [by repeat constructor|].
  apply (fail_effect_reraises call_fn (H42 no_errbacks) (VRef 1) ExactEffect (VRef 0)
           no_errbacks (mkExn "ValueError" "x")); [reflexivity | by repeat constructor].
Defined.




Example resolve_stub_duck_heap :
  resolve_stub call_fn (VRef 1) duck_heap = (Return (VInt 7), duck_heap).
Proof. reflexivity. Qed.

Example resolve_stub_42 :
  resolve_stub call_fn (VRef 1) (H42 []) = (Return (VInt 42), H42 []).
Proof. reflexivity. Qed.

Local Abbreviation H5 := (stub_heap (VInt 5) []).
Local Abbreviation H5s := (snd (sync_setup (VRef 1) H5)).
Local Abbreviation H5p := (snd (perform_stub (VRef 4) VNone H5s)).
Local Abbreviation H5t := (snd (perform_twice (VRef 4) VNone H5s)).
Local Abbreviation late := (VExcInfo (mkExcInfo (mkExn "IOError" "late") ["fail_effect"])).

Local Abbreviation H5f := (snd (perform_failing (VRef 4) VNone H5s)).
Local Abbreviation late_info := (mkExcInfo (mkExn "IOError" "late") ["fail_effect"]).


Lemma sync_perform_prefers_success_witness :
  sync_setup (VRef 1) H5 = (Return (VRef 2, VRef 3, VRef 4), H5s) /\
  perform_twice (VRef 4) VNone H5s = (Return VNone, H5t) /\
  get_items (VRef 2) H5t = (Return [VInt 1], H5t) /\
  get_items (VRef 3) H5t = (Return [late], H5t) /\
  sync_perform perform_twice (VRef 1) VNone H5 = (Return (VInt 1), H5t).
Proof.
  do 4 (split; [reflexivity|]).
  apply (sync_perform_prefers_success perform_twice H5 (VRef 1) VNone
           (VRef 2) (VRef 3) (VRef 4) H5s VNone H5t (VInt 1) [] late []);
    reflexivity.
Defined.


Example sync_perform_twice :
  fst (sync_perform perform_twice (VRef 1) VNone H5) = Return (VInt 1).
Proof. reflexivity. Qed.

Example sync_perform_deferred :
  sync_perform perform_deferred (VRef 1) VNone H5 = (Raise not_synchronous, H5s).
Proof. reflexivity. Qed.

Example sync_perform_stub_5 :
  fst (sync_perform perform_stub (VRef 1) VNone H5) = Return (VInt 5).
Proof. reflexivity. Qed.

End Runs.

(** ** Further properties of the engine *)

Section MoreEngineProperties.
Context {Fn : Type}.
Variable call_fn : Fn -> Value -> Heap Fn -> Outcome Value * Heap Fn.

Implicit Types (h : Heap Fn) (st : LoopState Fn) (p : CallbackPair Fn).
Implicit Types (callbacks slots pre post : list (CallbackPair Fn)).
Implicit Types (effect result intent : Value).

(** Slots whose selected side is absent are all passed over. *)
Lemma run_slots_all_absent effect slots i st :
  Forall (fun p => select (ls_is_error st) p = None) slots ->
  run_slots call_fn effect i slots st = Continue st.
Proof.
  intros Hall. revert i.
  induction Hall as [|p slots Hp _ IH]; intros i; [done|].
  simpl. unfold loop_body. rewrite Hp. apply IH.
Qed.

(** Resolving, cut at slot [i]. *)
Lemma resolve_effect_at h effect cls intent callbacks i result is_error :
  deref h effect = Some (OEffect cls intent callbacks) ->
  resolve_effect call_fn effect result is_error h =
  match state_at call_fn effect callbacks i (mkLoop result is_error h) with
  | Continue st =>
      match run_slots call_fn effect (i `min` length callbacks) (drop i callbacks) st with
      | Continue st' => finish st'
      | Stop out h' => (out, h')
      end
  | Stop out h' => (out, h')
  end.
Proof.
  intros Heff. unfold resolve_effect.
  rewrite (get_callbacks_effect _ _ _ _ _ Heff).
  rewrite (run_slots_from call_fn effect callbacks i).
  by destruct (state_at call_fn effect callbacks i (mkLoop result is_error h)).
Qed.

(** X1: an exception raised by the continuation of slot [i] that no
    later pair has an error continuation for comes out of
    [resolve_effect] as it was captured; the success continuations
    after slot [i] are not run. *)
Theorem unhandled_exception_propagates h effect cls intent callbacks
    i p cb result is_error st ei h1 :
  deref h effect = Some (OEffect cls intent callbacks) ->
  callbacks !! i = Some p ->
  state_at call_fn effect callbacks i (mkLoop result is_error h) = Continue st ->
  select (ls_is_error st) p = Some cb ->
  call call_fn cb (ls_result st) (ls_heap st) = (Raise ei, h1) ->
  Forall (fun q => snd q = None) (drop (S i) callbacks) ->
  resolve_effect call_fn effect result is_error h = (Raise ei, h1).
Proof.
  intros Heff Hp Hst Hsel Hcall Hrest.
  rewrite (resolve_effect_at _ _ _ _ _ (S i) _ _ Heff).
  rewrite (state_at_S _ _ _ _ _ _ Hp), Hst.
  unfold loop_body. rewrite Hsel. unfold try_call. rewrite Hcall. simpl.
  by rewrite run_slots_no_errbacks.
Qed.

(** X2: an injected failure skips every pair without an error
    continuation, success continuations included, and is handed, as
    captured, to the first error continuation on the way.  When that one
    returns a value that is no [Effect], the chain is back in success
    mode; when, run on that value, the success continuations after it
    neither raise nor return an [Effect], the outcome is their fold over
    that value. *)
Theorem fail_effect_absorbed h effect cls intent pre success cb post e v h1 :
  deref h effect = Some (OEffect cls intent (pre ++ (success, Some cb) :: post)) ->
  Forall (fun q => snd q = None) pre ->
  apply_continuation call_fn cb (VExcInfo (capture e)) h = (Return v, h1) ->
  type_is_Effect h1 v = false ->
  quiet_run call_fn post v h1 ->
  fail_effect call_fn effect e h = fold_continuations call_fn post v h1.
Proof.
  intros Heff Hpre Hcall Hv Hpost. unfold fail_effect, resolve_effect.
  rewrite (get_callbacks_effect _ _ _ _ _ Heff).
  rewrite run_slots_app, run_slots_no_errbacks by done.
  simpl. unfold loop_body at 1. simpl. unfold try_call. simpl.
  replace (call call_fn cb (VExcInfo (capture e)) h)
    with (apply_continuation call_fn cb (VExcInfo (capture e)) h) by by destruct cb.
  rewrite Hcall. simpl. rewrite Hv.
  by apply run_slots_quiet.
Qed.

(** The fold and the quiet runs look at the success sides only. *)
Lemma fold_continuations_sides callbacks1 callbacks2 acc :
  fst <$> callbacks1 = fst <$> callbacks2 ->
  fold_left (fold_step call_fn) callbacks1 acc
  = fold_left (fold_step call_fn) callbacks2 acc.
Proof.
  revert callbacks2 acc.
  induction callbacks1 as [|p1 l1 IH]; intros [|p2 l2] acc Hfst; try done.
  simpl in *. injection Hfst as Hp Hl.
  unfold fold_step at 2 4. rewrite Hp. by apply IH.
Qed.

Lemma quiet_run_sides callbacks1 callbacks2 r h :
  fst <$> callbacks1 = fst <$> callbacks2 ->
  quiet_run call_fn callbacks1 r h -> quiet_run call_fn callbacks2 r h.
Proof.
  revert callbacks2 r h.
  induction callbacks1 as [|p1 l1 IH]; intros [|p2 l2] r h Hfst; try done.
  simpl in *. injection Hfst as Hp Hl. rewrite <- Hp.
  destruct (fst p1) as [cb|]; [|by apply IH].
  intros (v & h' & Hcall & Hv & Hrest). exists v, h'. eauto.
Qed.

(** X3: on a run where no success continuation raises or returns an
    [Effect], the error continuations are dead: two effects whose pairs
    have the same success sides resolve that success result alike,
    whatever their error sides. *)
Theorem errbacks_unused_on_success h effect1 effect2 cls1 cls2 intent1 intent2
    callbacks1 callbacks2 r :
  deref h effect1 = Some (OEffect cls1 intent1 callbacks1) ->
  deref h effect2 = Some (OEffect cls2 intent2 callbacks2) ->
  fst <$> callbacks1 = fst <$> callbacks2 ->
  quiet_run call_fn callbacks1 r h ->
  resolve_effect call_fn effect1 r false h = resolve_effect call_fn effect2 r false h.
Proof.
  intros Heff1 Heff2 Hfst Hq1.
  pose proof (quiet_run_sides _ _ _ _ Hfst Hq1) as Hq2.
  unfold resolve_effect.
  rewrite (get_callbacks_effect _ _ _ _ _ Heff1), (get_callbacks_effect _ _ _ _ _ Heff2).
  rewrite !run_slots_quiet by done.
  by apply fold_continuations_sides.
Qed.

(** X9: a chain in which every success side is absent hands a success
    result back as it is, an [Effect] included: the type test is made on
    what a continuation returns, never on the result passed in. *)
Theorem resolve_effect_all_absent h effect cls intent callbacks r :
  deref h effect = Some (OEffect cls intent callbacks) ->
  Forall (fun q => fst q = None) callbacks ->
  resolve_effect call_fn effect r false h = (Return r, h).
Proof.
  intros Heff Hall. unfold resolve_effect.
  rewrite (get_callbacks_effect _ _ _ _ _ Heff).
  by rewrite run_slots_all_absent.
Qed.

(** X4: the two-step use of the docstring,
    [next_eff = resolve_effect(eff, first_result)] then
    [resolve_effect(next_eff, second_result)].  When slot [i] hands back
    an [Effect], resolving the effect this gives with a second result
    runs the handed-back effect's continuations first and the
    continuations after slot [i] next, none of the earlier ones again. *)
Theorem resolve_then_resolve h effect cls intent callbacks
    i p cb result is_error st r h1 intent' inner r2 :
  deref h effect = Some (OEffect cls intent callbacks) ->
  callbacks !! i = Some p ->
  state_at call_fn effect callbacks i (mkLoop result is_error h) = Continue st ->
  select (ls_is_error st) p = Some cb ->
  call call_fn cb (ls_result st) (ls_heap st) = (Return r, h1) ->
  deref h1 r = Some (OEffect ExactEffect intent' inner) ->
  deref h1 effect = Some (OEffect cls intent callbacks) ->
  Forall (fun q => forall c, fst q = Some c -> plain call_fn c) inner ->
  Forall (fun q => forall c, fst q = Some c -> plain call_fn c) (drop (S i) callbacks) ->
  bind (resolve_effect call_fn effect result is_error)
       (fun next_eff => resolve_effect call_fn next_eff r2 false) h
  = fold_left (apply_success call_fn) (drop (S i) callbacks)
      (fold_success call_fn inner r2
         (h1 ++ [OEffect ExactEffect intent' (inner ++ drop (S i) callbacks)])).
Proof.
  intros Heff Hp Hst Hsel Hcall Hr Heff1 Hinner Hrest.
  unfold bind. rewrite (resolve_effect_at _ _ _ _ _ (S i) _ _ Heff).
  rewrite (state_at_S _ _ _ _ _ _ Hp), Hst.
  unfold loop_body. rewrite Hsel. unfold try_call. rewrite Hcall. simpl.
  unfold type_is_Effect. rewrite Hr.
  unfold wrap_remaining, bind.
  rewrite (get_intent_effect _ _ _ _ _ Hr), (get_callbacks_effect _ _ _ _ _ Hr).
  rewrite (get_callbacks_effect _ _ _ _ _ Heff1). simpl.
  unfold resolve_effect at 1, get_callbacks. simpl.
  unfold Heap, addr in *. rewrite list_lookup_middle by done.
  etrans; [apply run_slots_plain; by apply Forall_app|].
  apply fold_left_app.
Qed.

(** X7: [resolve_stub] on [Effect(StubIntent(r))], when on the run
    from [r] no success continuation raises or returns an [Effect], is
    the fold of the success continuations over [r]. *)
Theorem resolve_stub_is_fold h effect cls iv callbacks r :
  deref h effect = Some (OEffect cls iv callbacks) ->
  deref h iv = Some (StubIntent r) ->
  quiet_run call_fn callbacks r h ->
  resolve_stub call_fn effect h = fold_continuations call_fn callbacks r h.
Proof.
  intros Heff Hiv Hq. unfold resolve_stub, bind.
  rewrite (get_intent_effect _ _ _ _ _ Heff).
  unfold get_result. rewrite Hiv. unfold StubIntent.
  rewrite lookup_singleton_eq.
  unfold resolve_effect. rewrite (get_callbacks_effect _ _ _ _ _ Heff).
  by apply run_slots_quiet.
Qed.

Lemma loop_body_carries_exc_info effect i p st st' :
  carries_exc_info st ->
  loop_body call_fn effect i p st = Continue st' ->
  carries_exc_info st'.
Proof.
  intros Hst. unfold loop_body.
  destruct (select (ls_is_error st) p) as [cb|]; [|by intros [= <-]].
  unfold try_call.
  destruct (call call_fn cb (ls_result st) (ls_heap st)) as [[v|ei] h']; simpl.
  - destruct (type_is_Effect h' v).
    + by destruct (wrap_remaining effect i v h').
    + intros [= <-]. by intros [=].
  - intros [= <-]. intros _. by exists ei.
Qed.

(** X8: the loop keeps the error payload an [exc_info]: entered in
    success mode, or in error mode with a captured exception, it is in
    every slot it reaches either in success mode or in error mode with a
    captured exception, so that the [six.reraise] after the loop always
    has a triple to unpack. *)
Theorem error_mode_carries_exc_info effect slots i st st' :
  carries_exc_info st ->
  run_slots call_fn effect i slots st = Continue st' ->
  carries_exc_info st'.
Proof.
  revert i st. induction slots as [|p slots IH]; intros i st Hst; simpl.
  - by intros [= <-].
  - destruct (loop_body call_fn effect i p st) as [st1|out h1] eqn:Hbody; [|done].
    apply IH. by eapply loop_body_carries_exc_info.
Qed.

(** *** The engine only allocates *)

Section Monotone.

(** User code allocates and leaves what is there as it is. *)
Hypothesis call_fn_extends : forall f x h0, h0 `prefix_of` snd (call_fn f x h0).

Lemma wrap_remaining_extends effect i result h :
  h `prefix_of` snd (wrap_remaining effect i result h).
Proof.
  unfold wrap_remaining, bind.
  destruct (get_intent result h) as [[i1|ei] h'] eqn:Hi.
  - assert (h' = h) as ->
      by (unfold get_intent in Hi; destruct (deref h result) as [[]|]; congruence).
    destruct (get_callbacks result h) as [[l1|ei] h'] eqn:Hc.
    + assert (h' = h) as ->
        by (unfold get_callbacks in Hc; destruct (deref h result) as [[]|]; congruence).
      destruct (get_callbacks effect h) as [[l2|ei] h'] eqn:Hc2.
      * assert (h' = h) as ->
          by (unfold get_callbacks in Hc2; destruct (deref h effect) as [[]|]; congruence).
        simpl. by apply prefix_app_r.
      * unfold get_callbacks in Hc2. simpl.
        destruct (deref h effect) as [[]|]; by inversion Hc2.
    + unfold get_callbacks in Hc. simpl.
      destruct (deref h result) as [[]|]; by inversion Hc.
  - unfold get_intent in Hi. simpl.
    destruct (deref h result) as [[]|]; by inversion Hi.
Qed.

Lemma loop_body_extends effect i p st :
  user_pair p ->
  match loop_body call_fn effect i p st with
  | Continue st' => ls_heap st `prefix_of` ls_heap st'
  | Stop out h' => ls_heap st `prefix_of` h'
  end.
Proof.
  intros [Hfst Hsnd]. unfold loop_body, select.
  assert (Hside : user_side (if ls_is_error st then snd p else fst p))
    by by destruct (ls_is_error st).
  destruct (if ls_is_error st then snd p else fst p) as [[f|cell]|]; try done.
  unfold try_call. simpl.
  pose proof (call_fn_extends f (ls_result st) (ls_heap st)) as Hcall.
  destruct (call_fn f (ls_result st) (ls_heap st)) as [[v|ei] h']; simpl in *.
  - destruct (type_is_Effect h' v); [|done].
    pose proof (wrap_remaining_extends effect i v h') as Hwrap.
    destruct (wrap_remaining effect i v h') as [out h'']. simpl in *.
    by etrans.
  - done.
Qed.

Lemma run_slots_extends effect slots i st :
  Forall user_pair slots ->
  match run_slots call_fn effect i slots st with
  | Continue st' => ls_heap st `prefix_of` ls_heap st'
  | Stop out h' => ls_heap st `prefix_of` h'
  end.
Proof.
  intros Hall. revert i st.
  induction Hall as [|p slots Hp _ IH]; intros i st; simpl; [done|].
  pose proof (loop_body_extends effect i p st Hp) as Hbody.
  destruct (loop_body call_fn effect i p st) as [st1|out h1]; [|done].
  specialize (IH (S i) st1).
  destruct (run_slots call_fn effect (S i) slots st1); by etrans.
Qed.

(** X5: with user functions that only allocate, and no collector in the
    chain, resolving changes no object of the heap and removes none: the
    heap it leaves is the heap it found followed by what was allocated. *)
Theorem resolve_effect_extends_heap h effect cls intent callbacks result is_error :
  deref h effect = Some (OEffect cls intent callbacks) ->
  Forall user_pair callbacks ->
  h `prefix_of` snd (resolve_effect call_fn effect result is_error h).
Proof.
  intros Heff Hall. unfold resolve_effect.
  rewrite (get_callbacks_effect _ _ _ _ _ Heff).
  pose proof (run_slots_extends effect callbacks 0 (mkLoop result is_error h) Hall) as Hrun.
  destruct (run_slots call_fn effect 0 callbacks (mkLoop result is_error h))
    as [st|out h']; [|done].
  unfold finish, reraise, throw.
  destruct (ls_is_error st); [destruct (ls_result st)|]; done.
Qed.

End Monotone.

End MoreEngineProperties.

Section MoreHarnessProperties.
Context {Fn : Type}.
Variable perform : Value -> Value -> M Fn Value.

(** X6: an exception raised by [perform] leaves [sync_perform] as it
    is; neither collection is looked at. *)
Theorem sync_perform_propagates h effect dispatcher successes errors effect' h1 ei h2 :
  sync_setup effect h = (Return (successes, errors, effect'), h1) ->
  perform effect' dispatcher h1 = (Raise ei, h2) ->
  sync_perform perform effect dispatcher h = (Raise ei, h2).
Proof.
  intros Hsetup Hperf. unfold sync_perform, bind.
  rewrite Hsetup. simpl. by rewrite Hperf.
Qed.

End MoreHarnessProperties.

(** ** The further properties on concrete runs *)

Section MoreRuns.
Import Sample.

Local Abbreviation H42 := (stub_heap (VInt 42)).
Local Abbreviation Hs := (H42 spawning).
Local Abbreviation Hs1 := (H42 spawning ++ [OEffect ExactEffect (VInt 9) [c1; c2]]).
Local Abbreviation H5 := (stub_heap (VInt 5) []).
Local Abbreviation H5s := (snd (sync_setup (VRef 1) H5)).
Local Abbreviation key_error := (mkExcInfo (mkExn "KeyError" "k") ["Boom"]).
Local Abbreviation plain_side :=
  (fun q : CallbackPair fn => forall c, fst q = Some c -> plain call_fn c).

Lemma Add_sides_plain (l : list (CallbackPair fn)) :
  Forall (fun q => match fst q with
                   | Some (UserFn (Add _)) | None => True
                   | _ => False
                   end) l ->
  Forall plain_side l.
Proof.
  intros Hl. eapply Forall_impl; [exact Hl|].
  intros [[[[k|e|cls intent cbs|]|cell]|] eb] Hq c; simpl in *; try done.
  intros [= <-]. intros x h. destruct x; by eexists _, _.
Qed.

Lemma Sample_call_fn_extends f x (h : Heap fn) : h `prefix_of` snd (call_fn f x h).
Proof.
  destruct f as [k|e|cls intent callbacks|]; simpl.
  - by destruct x.
  - done.
  - by apply prefix_app_r.
  - done.
Qed.

Lemma unhandled_exception_propagates_witness :
  deref (H42 failing) (VRef 1) = Some (OEffect ExactEffect (VRef 0) failing) /\
  state_at call_fn (VRef 1) failing 1 (mkLoop (VInt 42) false (H42 failing))
    = Continue (mkLoop (VInt 43) false (H42 failing)) /\
  call call_fn (UserFn (Boom (mkExn "KeyError" "k"))) (VInt 43) (H42 failing)
    = (Raise key_error, H42 failing) /\
  Forall (fun q => snd q = None) (drop 2 failing) /\
  resolve_effect call_fn (VRef 1) (VInt 42) false (H42 failing)
    = (Raise key_error, H42 failing).
Proof.
  do 3 (split; [reflexivity|]). split; [by repeat constructor|].
  apply (unhandled_exception_propagates call_fn (H42 failing) (VRef 1) ExactEffect (VRef 0)
           failing 1 (Some (UserFn (Boom (mkExn "KeyError" "k"))), None)
           (UserFn (Boom (mkExn "KeyError" "k"))) (VInt 42) false
           (mkLoop (VInt 43) false (H42 failing)) key_error (H42 failing));
    try reflexivity.
  by repeat constructor.
Defined.

Local Abbreviation caught := (VExcInfo (capture (mkExn "ValueError" "x"))).

Local Ltac quiet :=
  simpl;
  repeat first
    [ exact I
    | eexists _, _; split; [reflexivity|]; split; [reflexivity|]; simpl ].

Lemma fail_effect_absorbed_witness :
  deref (H42 absorbing) (VRef 1)
    = Some (OEffect ExactEffect (VRef 0)
              ([(Some (UserFn (Add 1)), None)]
               ++ (None, Some (UserFn Ident))
               :: [(Some (UserFn Ident), Some (UserFn (Boom (mkExn "KeyError" "k"))))])) /\
  apply_continuation call_fn (UserFn Ident) caught (H42 absorbing)
    = (Return caught, H42 absorbing) /\
  quiet_run call_fn
    [(Some (UserFn Ident), Some (UserFn (Boom (mkExn "KeyError" "k"))))]
    caught (H42 absorbing) /\
  fail_effect call_fn (VRef 1) (mkExn "ValueError" "x") (H42 absorbing)
    = fold_continuations call_fn
        [(Some (UserFn Ident), Some (UserFn (Boom (mkExn "KeyError" "k"))))]
        caught (H42 absorbing).
Proof.
  do 2 (split; [reflexivity|]). split; [quiet|].
  apply (fail_effect_absorbed call_fn (H42 absorbing) (VRef 1) ExactEffect (VRef 0)
           [(Some (UserFn (Add 1)), None)] None (UserFn Ident)
           [(Some (UserFn Ident), Some (UserFn (Boom (mkExn "KeyError" "k"))))]
           (mkExn "ValueError" "x") caught (H42 absorbing));
    try reflexivity.
  - by repeat constructor.
  - quiet.
Defined.

Example fail_effect_absorbing :
  fail_effect call_fn (VRef 1) (mkExn "ValueError" "x") (H42 absorbing)
    = (Return caught, H42 absorbing).
Proof. reflexivity. Qed.

Lemma errbacks_unused_on_success_witness :
  deref two_mixed (VRef 1) = Some (OEffect ExactEffect (VRef 0) mixed) /\
  deref two_mixed (VRef 2) = Some (OEffect ExactEffect (VRef 0) mixed_bare) /\
  fst <$> mixed = fst <$> mixed_bare /\
  quiet_run call_fn mixed (VInt 42) two_mixed /\
  resolve_effect call_fn (VRef 1) (VInt 42) false two_mixed
    = resolve_effect call_fn (VRef 2) (VInt 42) false two_mixed.
Proof.
  do 3 (split; [reflexivity|]). split; [quiet|].
  apply (errbacks_unused_on_success call_fn two_mixed (VRef 1) (VRef 2)
           ExactEffect ExactEffect (VRef 0) (VRef 0) mixed mixed_bare (VInt 42));
    try reflexivity.
  quiet.
Defined.

Lemma resolve_effect_all_absent_witness :
  deref (H42 [c2; c4]) (VRef 1) = Some (OEffect ExactEffect (VRef 0) [c2; c4]) /\
  Forall (fun q : CallbackPair fn => fst q = None) [c2; c4] /\
  resolve_effect call_fn (VRef 1) (VRef 1) false (H42 [c2; c4])
    = (Return (VRef 1), H42 [c2; c4]).
Proof.
  split; [reflexivity|]. split; [by repeat constructor|].
  apply (resolve_effect_all_absent call_fn (H42 [c2; c4]) (VRef 1) ExactEffect (VRef 0)
           [c2; c4] (VRef 1)); [reflexivity | by repeat constructor].
Defined.

Lemma resolve_then_resolve_witness :
  deref Hs (VRef 1) = Some (OEffect ExactEffect (VRef 0) spawning) /\
  state_at call_fn (VRef 1) spawning 1 (mkLoop (VInt 42) false Hs)
    = Continue (mkLoop (VInt 43) false Hs) /\
  call call_fn (UserFn (Spawn ExactEffect (VInt 9) [c1; c2])) (VInt 43) Hs
    = (Return (VRef 2), Hs1) /\
  Forall plain_side [c1; c2] /\
  Forall plain_side (drop 2 spawning) /\
  bind (resolve_effect call_fn (VRef 1) (VInt 42) false)
       (fun next_eff => resolve_effect call_fn next_eff (VInt 7) false) Hs
  = fold_left (apply_success call_fn) (drop 2 spawning)
      (fold_success call_fn [c1; c2] (VInt 7)
         (Hs1 ++ [OEffect ExactEffect (VInt 9) ([c1; c2] ++ drop 2 spawning)])).
Proof.
  assert (Hin : Forall plain_side [c1; c2])
    by (apply Add_sides_plain; by repeat constructor).
  assert (Hout : Forall plain_side (drop 2 spawning))
    by (apply Add_sides_plain; by repeat constructor).
  do 3 (split; [reflexivity|]). split; [exact Hin|]. split; [exact Hout|].
  apply (resolve_then_resolve call_fn Hs (VRef 1) ExactEffect (VRef 0) spawning 1
           (Some (UserFn (Spawn ExactEffect (VInt 9) [c1; c2])), None)
           (UserFn (Spawn ExactEffect (VInt 9) [c1; c2])) (VInt 42) false
           (mkLoop (VInt 43) false Hs) (VRef 2) Hs1 (VInt 9) [c1; c2] (VInt 7));
    try reflexivity; assumption.
Defined.

Example resolve_then_resolve_407 :
  fst (bind (resolve_effect call_fn (VRef 1) (VInt 42) false)
            (fun next_eff => resolve_effect call_fn next_eff (VInt 7) false) Hs)
  = Return (VInt 407).
Proof. reflexivity. Qed.

Lemma resolve_stub_is_fold_witness :
  deref (H42 mixed) (VRef 1) = Some (OEffect ExactEffect (VRef 0) mixed) /\
  deref (H42 mixed) (VRef 0) = Some (StubIntent (VInt 42)) /\
  quiet_run call_fn mixed (VInt 42) (H42 mixed) /\
  resolve_stub call_fn (VRef 1) (H42 mixed)
    = fold_continuations call_fn mixed (VInt 42) (H42 mixed).
Proof.
  do 2 (split; [reflexivity|]). split; [quiet|].
  apply (resolve_stub_is_fold call_fn (H42 mixed) (VRef 1) ExactEffect (VRef 0)
           mixed (VInt 42)); [reflexivity | reflexivity | quiet].
Defined.

Example resolve_stub_mixed_43 :
  resolve_stub call_fn (VRef 1) (H42 mixed) = (Return (VInt 43), H42 mixed).
Proof. reflexivity. Qed.

Lemma error_mode_carries_exc_info_witness :
  carries_exc_info (mkLoop (VInt 42) false (H42 failing)) /\
  run_slots call_fn (VRef 1) 0 failing (mkLoop (VInt 42) false (H42 failing))
    = Continue (mkLoop (VExcInfo key_error) true (H42 failing)) /\
  carries_exc_info (mkLoop (VExcInfo key_error) true (H42 failing)).
Proof.
  split; [by intros [=]|]. split; [reflexivity|].
  apply (error_mode_carries_exc_info call_fn (VRef 1) failing 0
           (mkLoop (VInt 42) false (H42 failing))
           (mkLoop (VExcInfo key_error) true (H42 failing)));
    [by intros [=] | reflexivity].
Defined.

Lemma resolve_effect_extends_heap_witness :
  (forall f x (h0 : Heap fn), h0 `prefix_of` snd (call_fn f x h0)) /\
  deref Hs (VRef 1) = Some (OEffect ExactEffect (VRef 0) spawning) /\
  Forall user_pair spawning /\
  Hs `prefix_of` snd (resolve_effect call_fn (VRef 1) (VInt 42) false Hs).
Proof.
  split; [exact Sample_call_fn_extends|]. split; [reflexivity|].
  split; [by repeat constructor|].
  apply (resolve_effect_extends_heap call_fn Sample_call_fn_extends Hs (VRef 1) ExactEffect
           (VRef 0) spawning (VInt 42) false); [reflexivity | by repeat constructor].
Defined.

Lemma sync_perform_propagates_witness :
  sync_setup (VRef 1) H5 = (Return (VRef 2, VRef 3, VRef 4), H5s) /\
  perform_broken (VRef 4) VNone H5s
    = (Raise (mkExcInfo (mkExn "KeyError" "no performer") ["perform"]), H5s) /\
  sync_perform perform_broken (VRef 1) VNone H5
    = (Raise (mkExcInfo (mkExn "KeyError" "no performer") ["perform"]), H5s).
Proof.
  do 2 (split; [reflexivity|]).
  apply (sync_perform_propagates perform_broken H5 (VRef 1) VNone
           (VRef 2) (VRef 3) (VRef 4) H5s
           (mkExcInfo (mkExn "KeyError" "no performer") ["perform"]) H5s);
    reflexivity.
Defined.

End MoreRuns.
